(** * clips.environment: the Environment class and the python-function callback

    A shallow embedding of [clips/environment.py].  The module is glue around
    a native rule engine: every method of [Environment] is one or two calls
    into the native library [lib], followed by a test of the integer the call
    hands back.  The only logic of its own is the callback [python_function],
    through which the engine calls Python functions registered with
    [define_function].

    Python code is embedded in a state-and-exception monad over a [world]
    holding the engine, the process-wide dictionary [ENVIRONMENT_DATA], the
    argument frame of the external call in progress and the result cells the
    engine handed out. *)

From Stdlib Require Import ZArith String Ascii List Bool Lia Sorted.
From stdpp Require Import base option list gmap strings pretty.

Set Warnings "-register-all".

Local Open Scope string_scope.
Local Open Scope Z_scope.

(** ** Values crossing the boundary *)

(** [clips.common.CLIPSType]: the type tags of the engine's values.  Only
    the tags of the values modelled below are listed. *)
Inductive CLIPSType : Type :=
  | INTEGER
  | SYMBOL
  | STRING
  | MULTIFIELD.

(** A value as Python sees it through [clips.data.DataObject]: the image of
    an engine value, or [None].  [VSymbol s] is [clips.common.Symbol(s)], a
    [str] subclass; floats are left out. *)
Inductive value : Type :=
  | VNone
  | VInteger (n : Z)
  | VString (s : string)
  | VSymbol (s : string)
  | VMultifield (l : list value).

(** The engine type of a value; [None] has none. *)
Definition clips_type (v : value) : option CLIPSType :=
  match v with
  | VNone => None
  | VInteger _ => Some INTEGER
  | VString _ => Some STRING
  | VSymbol _ => Some SYMBOL
  | VMultifield _ => Some MULTIFIELD
  end.

Definition CLIPSType_eqb (a b : CLIPSType) : bool :=
  match a, b with
  | INTEGER, INTEGER | SYMBOL, SYMBOL | STRING, STRING
  | MULTIFIELD, MULTIFIELD => true
  | _, _ => false
  end.

(** [ret is not None] *)
Definition is_not_None (v : value) : bool :=
  match v with VNone => false | _ => true end.

(** ** Exceptions *)

(** An exception object, as far as the module looks at it: the name of its
    class ([error.__class__.__name__]), the names of the classes it derives
    from, and [str(error)].  Classes are told apart by name. *)
Record exn : Type := Exn {
  exn_class : string;
  exn_bases : list string;
  exn_str : string
}.

(** [isinstance(error, cls)] *)
Definition isinstance (error : exn) (cls : string) : bool :=
  String.eqb cls (exn_class error) || existsb (String.eqb cls) (exn_bases error).

(** The result of running a piece of Python: a value or a raised exception. *)
Inductive outcome (A : Type) : Type :=
  | Return (a : A)
  | Raise (error : exn).
Arguments Return {A} a.
Arguments Raise {A} error.

(** ** [repr] of a [str]

    [KeyError] shows the missing key through [repr].  Strings are sequences
    of code points below 256. *)

Definition squote : ascii := "'"%char.
Definition dquote : ascii := "034"%char.
Definition backslash : ascii := "\"%char.

Definition hexdigit (n : N) : ascii :=
  match String.get (N.to_nat n) "0123456789abcdef" with
  | Some c => c
  | None => "0"%char
  end.

Definition hex_escape (c : ascii) : string :=
  let n := N_of_ascii c in
  String backslash (String "x"%char
    (String (hexdigit (n / 16)) (String (hexdigit (n mod 16)) EmptyString))).

(** Code points below 256 that [repr] copies as they are. *)
Definition printable (c : ascii) : bool :=
  let n := N_of_ascii c in
  ((32 <=? n) && (n <? 127) || (161 <=? n) && negb (n =? 173))%N.

Definition repr_char (quote c : ascii) : string :=
  if Ascii.eqb c quote || Ascii.eqb c backslash then
    String backslash (String c EmptyString)
  else if Ascii.eqb c "009"%char then "\t"
  else if Ascii.eqb c "010"%char then "\n"
  else if Ascii.eqb c "013"%char then "\r"
  else if printable c then String c EmptyString
  else hex_escape c.

Fixpoint contains (c : ascii) (s : string) : bool :=
  match s with
  | EmptyString => false
  | String d s' => Ascii.eqb c d || contains c s'
  end.

Fixpoint repr_body (quote : ascii) (s : string) : string :=
  match s with
  | EmptyString => EmptyString
  | String c s' => repr_char quote c +:+ repr_body quote s'
  end.

(** [repr(s)]: single quotes, unless the string has single quotes and no
    double ones. *)
Definition repr (s : string) : string :=
  let quote := if contains squote s && negb (contains dquote s)
               then dquote else squote in
  String quote (repr_body quote s +:+ String quote EmptyString).

(** ** The exceptions the module meets *)

Definition KeyError (key_repr : string) : exn :=
  Exn "KeyError" ["LookupError"; "Exception"; "BaseException"] key_repr.

Definition TypeError (message : string) : exn :=
  Exn "TypeError" ["Exception"; "BaseException"] message.

(** [RuntimeError()] *)
Definition RuntimeError : exn :=
  Exn "RuntimeError" ["Exception"; "BaseException"] "".

(** [clips.error.CLIPSError], built from the text the error router holds. *)
Definition CLIPSError (message : string) : exn :=
  Exn "CLIPSError" ["RuntimeError"; "Exception"; "BaseException"] message.

(** ** Python callables *)

(** A function handed to [define_function]: its [__name__] and what a call
    with a list of positional arguments does.  A call returns a value or
    raises; it does not reach back into the environment. *)
Record callable : Type := Callable {
  __name__ : string;
  __call__ : list value → outcome value
}.

(** ** The monad of Python code *)

(** A handle of a native environment (the [void *] of [lib.CreateEnvironment])
    and the address of a result cell. *)
Abbreviation handle := N (only parsing).
Abbreviation pointer := N (only parsing).

(** [clips.error.ErrorRouter(name, priority)] *)
Record ErrorRouter : Type := {
  router_name : string;
  router_priority : Z
}.

(** [clips.common.EnvData(user_functions, error_router)] *)
Record EnvData : Type := {
  user_functions : gmap string callable;
  error_router : ErrorRouter
}.

(** The calls into the native library, as a ghost log keeps them. *)
Inductive native_call : Type :=
  | CreateEnvironment_
  | DestroyEnvironment_ (env : handle)
  | define_function_ (env : handle)
  | add_to_environment_ (env : handle) (router : ErrorRouter)
  | EnvBload_ (env : handle) (path : string)
  | EnvLoad_ (env : handle) (path : string)
  | EnvBsave_ (env : handle) (path : string)
  | EnvSave_ (env : handle) (path : string)
  | EnvBatchStar_ (env : handle) (path : string)
  | EnvBuild_ (env : handle) (construct : string)
  | EnvEval_ (env : handle) (construct : string)
  | EnvReset_ (env : handle)
  | EnvClear_ (env : handle).

(** Everything the module reads or writes.  [E] is the state of the native
    library. *)
Record world (E : Type) : Type := World {
  engine : E;
  ENVIRONMENT_DATA : gmap handle EnvData;
  frame : list value;
  cells : gmap pointer value;
  calls : list native_call
}.
Arguments World {E}.
Arguments engine {E}.
Arguments ENVIRONMENT_DATA {E}.
Arguments frame {E}.
Arguments cells {E}.
Arguments calls {E}.

Definition M (E A : Type) : Type := world E → outcome A * world E.

#[global] Instance M_ret {E} : MRet (M E) := λ A a w, (Return a, w).

#[global] Instance M_bind {E} : MBind (M E) := λ A B k m w,
  match m w with
  | (Return a, w') => k a w'
  | (Raise error, w') => (Raise error, w')
  end.

(** [raise error] *)
Definition raise {E A} (error : exn) : M E A := λ w, (Raise error, w).

(** Lifts the outcome of a call that does not touch the world. *)
Definition lift {E A} (o : outcome A) : M E A := λ w, (o, w).

(** [try: body / except classes as error: handler error].  An exception
    that is an instance of none of [classes] goes on. *)
Definition try_except {E A} (body : M E A) (classes : list string)
    (handler : exn → M E A) : M E A := λ w,
  match body w with
  | (Return a, w') => (Return a, w')
  | (Raise error, w') =>
      if existsb (isinstance error) classes then handler error w'
      else (Raise error, w')
  end.

(** [range(start, stop)] *)
Definition range (start stop : Z) : list Z := seqZ start (stop - start).

(** ** The native library *)

(** What the engine did with a command.  Nothing of it is handed back to
    Python by the entry points that return no value. *)
Inductive native_status : Type :=
  | Done
  | Failed.

Module lib.

(** The entry points of [clips._clips.lib] the module calls on an
    environment.  Each is a transition of the engine [E]; where the C
    function returns an [int], the Python caller receives it.  The engine
    itself is not part of the package, so the entry points are left open.

    [DestroyEnvironment] stands for the whole expression
    [lib.DestroyEnvironment(self._env)], which can raise while the
    interpreter shuts down.  [EnvReset] and [EnvClear] hand nothing back;
    the status is the engine's own account of the command.
    [add_to_environment] is what [ErrorRouter.add_to_environment] of
    [clips.error] does to the engine.  [last_message] is the text
    [ENVIRONMENT_DATA[env].error_router] holds, from which
    [CLIPSError(env)] is built; [cdata_repr] is [repr] of a handle. *)
Record t (E : Type) : Type := Lib {
  CreateEnvironment : E → handle * E;
  DestroyEnvironment : handle → E → outcome Z * E;
  define_function : handle → E → E;
  add_to_environment : handle → ErrorRouter → E → E;
  EnvBload : handle → string → E → Z * E;
  EnvLoad : handle → string → E → Z * E;
  EnvBsave : handle → string → E → Z * E;
  EnvSave : handle → string → E → Z * E;
  EnvBatchStar : handle → string → E → Z * E;
  EnvBuild : handle → string → E → Z * E;
  EnvEval : handle → string → E → (Z * value) * E;
  EnvReset : handle → E → native_status * E;
  EnvClear : handle → E → native_status * E;
  last_message : handle → E → string;
  cdata_repr : handle → string
}.
Arguments Lib {E}.
Arguments CreateEnvironment {E}.
Arguments DestroyEnvironment {E}.
Arguments define_function {E}.
Arguments add_to_environment {E}.
Arguments EnvBload {E}.
Arguments EnvLoad {E}.
Arguments EnvBsave {E}.
Arguments EnvSave {E}.
Arguments EnvBatchStar {E}.
Arguments EnvBuild {E}.
Arguments EnvEval {E}.
Arguments EnvReset {E}.
Arguments EnvClear {E}.
Arguments last_message {E}.
Arguments cdata_repr {E}.

(** The argument accessors of an external function read the frame of the
    call in progress: the values at the call site, numbered from 1. *)

(** [EnvRtnArgCount(env)] *)
Definition EnvRtnArgCount (frame : list value) : Z :=
  Z.of_nat (length frame).

(** [EnvRtnUnknown(env, index, temp.byref)]: the content of [temp]
    afterwards.  A position outside the frame leaves the cell alone. *)
Definition EnvRtnUnknown (frame : list value) (index : Z) (temp : value) : value :=
  if 1 <=? index then default temp (frame !! Z.to_nat (index - 1)) else temp.

(** [EnvArgTypeCheck(env, name, position, expected, temp.byref)]: fetches
    the argument into [temp] and answers 1 when it has the expected type,
    0 otherwise (also when there is no such argument). *)
Definition EnvArgTypeCheck (frame : list value) (name : string) (position : Z)
    (expected : CLIPSType) (temp : value) : Z * value :=
  let temp' := EnvRtnUnknown frame position temp in
  if (1 <=? position) && (position <=? EnvRtnArgCount frame) then
    match clips_type temp' with
    | Some ty => if CLIPSType_eqb ty expected then (1, temp') else (0, temp')
    | None => (0, temp')
    end
  else (0, temp').

End lib.

(** ** Reading and writing the world *)

Section Primitives.
Context {E : Type}.

(** The world after a native call that left the engine in [e']. *)
Definition after (call : native_call) (e' : E) (w : world E) : world E :=
  World e' (ENVIRONMENT_DATA w) (frame w) (cells w) (calls w ++ [call]).

(** A call into the native library: the engine moves, the log grows. *)
Definition native {A} (call : native_call) (f : E → A * E) : M E A := λ w,
  let '(a, e') := f (engine w) in (Return a, after call e' w).

(** A native call whose expression can raise. *)
Definition native_raising {A} (call : native_call) (f : E → outcome A * E)
    : M E A := λ w,
  let '(o, e') := f (engine w) in (o, after call e' w).

Definition get_frame : M E (list value) := λ w, (Return (frame w), w).

(** [ENVIRONMENT_DATA[env]] *)
Definition ENVIRONMENT_DATA_getitem (L : lib.t E) (env : handle) : M E EnvData := λ w,
  match ENVIRONMENT_DATA w !! env with
  | Some d => (Return d, w)
  | None => (Raise (KeyError (lib.cdata_repr L env)), w)
  end.

(** [ENVIRONMENT_DATA[env] = d] *)
Definition ENVIRONMENT_DATA_setitem (env : handle) (d : EnvData) : M E unit := λ w,
  (Return tt,
   World (engine w) (<[env := d]> (ENVIRONMENT_DATA w)) (frame w) (cells w)
         (calls w)).

(** [del ENVIRONMENT_DATA[env]] *)
Definition ENVIRONMENT_DATA_delitem (L : lib.t E) (env : handle) : M E unit := λ w,
  match ENVIRONMENT_DATA w !! env with
  | Some _ =>
      (Return tt,
       World (engine w) (delete env (ENVIRONMENT_DATA w)) (frame w) (cells w)
             (calls w))
  | None => (Raise (KeyError (lib.cdata_repr L env)), w)
  end.

(** The world with [v] in the cell [data_object]. *)
Definition write_cell (data_object : pointer) (v : value) (w : world E) : world E :=
  World (engine w) (ENVIRONMENT_DATA w) (frame w)
        (<[data_object := v]> (cells w)) (calls w).

(** [data.value = v] for the [DataObject] wrapping the cell [data_object] *)
Definition DataObject_set_value (data_object : pointer) (v : value) : M E unit := λ w,
  (Return tt, write_cell data_object v w).

(** [raise CLIPSError(env)] *)
Definition raise_CLIPSError {A} (L : lib.t E) (env : handle) : M E A := λ w,
  (Raise (CLIPSError (lib.last_message L env (engine w))), w).

End Primitives.

(** [user_functions[key]]: a [Symbol] or a [str] finds the entry of its text;
    any other hashable key finds nothing; a list is not hashable. *)
Definition user_functions_getitem (functions : gmap string callable) (key : value)
    : outcome callable :=
  match key with
  | VSymbol s | VString s =>
      match functions !! s with
      | Some f => Return f
      | None => Raise (KeyError (repr s))
      end
  | VInteger n => Raise (KeyError (pretty n))
  | VNone => Raise (KeyError "None")
  | VMultifield _ => Raise (TypeError "unhashable type: 'list'")
  end.

(** [str("%s: %s" % (error.__class__.__name__, error))] *)
Definition format_error (error : exn) : string :=
  exn_class error +:+ ": " +:+ exn_str error.

(** A [DataObject] no call has written yet; it is not read before one has. *)
Definition DataObject_new : value := VNone.

(** [path.encode()]: strings are kept as their bytes. *)
Definition encode (s : string) : string := s.

(** ** class Environment *)

Module Environment.

(** The object holds the handle of its native environment.  The namespace
    objects ([Facts], [Agenda], ...) wrap the same handle and are left
    out. *)
Record t : Type := { _env : handle }.

Section Methods.
Context {E : Type} (L : lib.t E).

(** [Environment()] *)
Definition __init__ : M E t :=
  env ← native CreateEnvironment_ (lib.CreateEnvironment L);
  native (define_function_ env) (λ e, (tt, lib.define_function L env e));;
  let error_router :=
    {| router_name := "python-error-router"; router_priority := 40 |} in
  native (add_to_environment_ env error_router)
         (λ e, (tt, lib.add_to_environment L env error_router e));;
  ENVIRONMENT_DATA_setitem env
    {| user_functions := ∅; error_router := error_router |};;
  mret {| _env := env |}.

Definition __del__ (self : t) : M E unit :=
  try_except
    (native_raising (DestroyEnvironment_ (_env self))
                    (lib.DestroyEnvironment L (_env self));;
     ENVIRONMENT_DATA_delitem L (_env self))
    ["AttributeError"; "KeyError"; "TypeError"]
    (λ _, mret tt).

Definition load (self : t) (path : string) : M E unit :=
  ret ← native (EnvBload_ (_env self) (encode path))
               (lib.EnvBload L (_env self) (encode path));
  if negb (ret =? 1) then
    ret ← native (EnvLoad_ (_env self) (encode path))
                 (lib.EnvLoad L (_env self) (encode path));
    if negb (ret =? 1) then raise_CLIPSError L (_env self) else mret tt
  else mret tt.

Definition save (self : t) (path : string) (binary : bool) : M E unit :=
  ret ← (if binary then
           native (EnvBsave_ (_env self) (encode path))
                  (lib.EnvBsave L (_env self) (encode path))
         else
           native (EnvSave_ (_env self) (encode path))
                  (lib.EnvSave L (_env self) (encode path)));
  if ret =? 0 then raise_CLIPSError L (_env self) else mret tt.

Definition batch_star (self : t) (path : string) : M E unit :=
  ret ← native (EnvBatchStar_ (_env self) (encode path))
               (lib.EnvBatchStar L (_env self) (encode path));
  if negb (ret =? 1) then raise_CLIPSError L (_env self) else mret tt.

Definition build (self : t) (construct : string) : M E unit :=
  ret ← native (EnvBuild_ (_env self) (encode construct))
               (lib.EnvBuild L (_env self) (encode construct));
  if negb (ret =? 1) then raise_CLIPSError L (_env self) else mret tt.

Definition eval (self : t) (construct : string) : M E value :=
  '(ret, data) ← native (EnvEval_ (_env self) (encode construct))
                        (lib.EnvEval L (_env self) (encode construct));
  if negb (ret =? 1) then raise_CLIPSError L (_env self) else mret data.

Definition reset (self : t) : M E unit :=
  native (EnvReset_ (_env self)) (lib.EnvReset L (_env self));;
  mret tt.

Definition clear (self : t) : M E unit :=
  native (EnvClear_ (_env self)) (lib.EnvClear L (_env self));;
  mret tt.

Definition define_function (self : t) (function : callable) : M E unit :=
  d ← ENVIRONMENT_DATA_getitem L (_env self);
  ENVIRONMENT_DATA_setitem (_env self)
    {| user_functions := <[__name__ function := function]> (user_functions d);
       error_router := error_router d |}.

End Methods.

End Environment.

(** ** The callback *)

(** One turn of [for index in range(2, argnum + 1)]: fetch the argument into
    [temp], append [temp.value]. *)
Definition fetch_argument (frame : list value) (state : value * list value)
    (index : Z) : value * list value :=
  let '(temp, arguments) := state in
  let temp := lib.EnvRtnUnknown frame index temp in
  (temp, (arguments ++ [temp])%list).

(** The body of [python_function(env, data_object)], the function the
    engine calls for [(python-function name arg ...)]. *)
Definition python_function {E} (L : lib.t E) (env : handle) (data_object : pointer)
    : M E unit :=
  let arguments := [] in
  let temp := DataObject_new in
  frame ← get_frame;
  let argnum := lib.EnvRtnArgCount frame in
  let '(checked, temp) :=
    lib.EnvArgTypeCheck frame "python-function" 1 SYMBOL temp in
  if negb (checked =? 1) then raise RuntimeError
  else
    let funcname := temp in
    let '(temp, arguments) :=
      fold_left (fetch_argument frame) (range 2 (argnum + 1)) (temp, arguments) in
    ret ← try_except
            (d ← ENVIRONMENT_DATA_getitem L env;
             function ← lift (user_functions_getitem (user_functions d) funcname);
             lift (__call__ function arguments))
            ["Exception"]
            (λ error, mret (VString (format_error error)));
    DataObject_set_value data_object
      (if is_not_None ret then ret else VSymbol "nil").

(** The [try] statement of the callback on its own, for a function name and
    the collected arguments; the lemmas on the callback speak of it. *)
Definition call_user_function {E} (L : lib.t E) (env : handle) (funcname : value)
    (arguments : list value) : M E value :=
  try_except
    (d ← ENVIRONMENT_DATA_getitem L env;
     function ← lift (user_functions_getitem (user_functions d) funcname);
     lift (__call__ function arguments))
    ["Exception"]
    (λ error, mret (VString (format_error error))).

(** [f] is what [ENVIRONMENT_DATA[env].user_functions[name]] finds. *)
Definition registered {E} (w : world E) (env : handle) (name : string)
    (f : callable) : Prop :=
  ∃ d, ENVIRONMENT_DATA w !! env = Some d ∧ user_functions d !! name = Some f.

(** The environment has its registry, with no function of that name in it. *)
Definition unregistered {E} (w : world E) (env : handle) (name : string) : Prop :=
  ∃ d, ENVIRONMENT_DATA w !! env = Some d ∧ user_functions d !! name = None.

(** The type of the argument in position 1, if there is one. *)
Definition first_argument_type (frame : list value) : option CLIPSType :=
  head frame ≫= clips_type.

(** The world a piece of Python leaves behind. *)
Definition run {E A} (m : M E A) (w : world E) : world E := snd (m w).

(** The world when the engine calls an external function: [arguments] are
    the values at the call site. *)
Definition calling {E} (arguments : list value) (w : world E) : world E :=
  World (engine w) (ENVIRONMENT_DATA w) arguments (cells w) (calls w).

(** * A rule engine behind the library *)

(** The engine the native library wraps is not part of the package: the
    repository holds only the calls into it.  Module [Engine] models it from
    the spec (sections 3 and 4: the data, the fact store, the pattern
    matcher, the agenda, and the life cycle of an environment), as far as the
    life cycle needs; module [Agenda] below has the execution loop.
    Patterns are filters on single facts: joins on shared variables and the
    slot constraints of templates are left out. *)

Module Engine.

(** Modelled from the spec: a fact (section 3) has an identifier, a template
    reference or none, and an ordered sequence of slot values. *)
Record Fact : Type := {
  fact_id : N;
  fact_template : option string;
  fact_values : list value
}.

(** Modelled from the spec: a template (section 3), reduced to its name and
    the names of its slots. *)
Record Template : Type := {
  template_name : string;
  template_slots : list string
}.

(** Modelled from the spec: a left-hand-side pattern (section 4.2) filters
    facts by template and slot values. *)
Record Pattern : Type := {
  pattern_template : option string;
  pattern_filter : list value → bool
}.

(** Modelled from the spec: an action (section 4.4) asserts or retracts a
    fact, or calls a registered function by name with positional
    arguments. *)
Inductive Action : Type :=
  | Assert (template : option string) (values : list value)
  | Retract (id : N)
  | Call (name : string) (arguments : list value).

(** Modelled from the spec: a rule (section 3). *)
Record Rule : Type := {
  rule_name : string;
  rule_salience : Z;
  rule_patterns : list Pattern;
  rule_actions : list Action
}.

(** Modelled from the spec: an activation (section 3) is a rule with the
    facts that satisfy its patterns. *)
Record Activation : Type := {
  activation_rule : string;
  activation_salience : Z;
  activation_facts : list N
}.

#[global] Instance Activation_eq_dec : EqDecision Activation.
Proof. solve_decision. Defined.

(** Modelled from the spec: what an environment owns (section 3), the fact
    store with its counter of identifiers, the registries of templates and
    rules, and the agenda. *)
Record environment : Type := {
  facts : list Fact;
  next_id : N;
  templates : list Template;
  rules : list Rule;
  agenda : list Activation
}.

(** Modelled from the spec: [create()] allocates the fact store, an empty
    rule registry and an empty agenda (section 4.5). *)
Definition create : environment :=
  {| facts := []; next_id := 0; templates := []; rules := []; agenda := [] |}.

(** Modelled from the spec: [reset()] clears all facts and activations but
    retains rule and template definitions (section 4.5).  Fact identifiers
    are never reused (section 3), so the counter stays. *)
Definition reset (s : environment) : environment :=
  {| facts := []; next_id := next_id s; templates := templates s;
     rules := rules s; agenda := [] |}.

(** Modelled from the spec: [clear()] additionally drops rule and template
    definitions, returning to the state after [create()] (section 4.5). *)
Definition clear (s : environment) : environment := create.

(** Modelled from the spec: a pattern node passes the facts of its template
    whose values meet its constraints (section 4.2). *)
Definition matches (p : Pattern) (f : Fact) : bool :=
  bool_decide (pattern_template p = fact_template f)
  && pattern_filter p (fact_values f).

(** Modelled from the spec: the matches of a rule (section 4.2), every
    tuple of facts, one per pattern in order, that satisfies the patterns. *)
Fixpoint tuples (ps : list Pattern) (fs : list Fact) : list (list N) :=
  match ps with
  | [] => [[]]
  | p :: ps' =>
      flat_map (λ f, map (cons (fact_id f)) (tuples ps' fs))
               (List.filter (matches p) fs)
  end.

(** Modelled from the spec: the agenda is ordered by salience, highest
    first, and among equals the most recent activation comes first, the
    depth strategy (section 4.3). *)
Fixpoint insert_by_salience (a : Activation) (ag : list Activation) : list Activation :=
  match ag with
  | [] => [a]
  | b :: ag' =>
      if (activation_salience b <=? activation_salience a)%Z then a :: ag
      else b :: insert_by_salience a ag'
  end.

(** Modelled from the spec: [insert(Activation)]; no two activations for
    the same rule and fact tuple coexist, inserting a duplicate is a no-op
    (section 4.3). *)
Definition add_activation (a : Activation) (ag : list Activation) : list Activation :=
  if bool_decide (a ∈ ag) then ag else insert_by_salience a ag.

(** The activation of a rule on a tuple of facts. *)
Definition activation (r : Rule) (ids : list N) : Activation :=
  {| activation_rule := rule_name r; activation_salience := rule_salience r;
     activation_facts := ids |}.

(** Modelled from the spec: the matcher puts one activation on the agenda
    for each of the given matches of a rule (section 4.2). *)
Definition activate (r : Rule) (matches : list (list N)) (ag : list Activation)
    : list Activation :=
  fold_left (λ ag ids, add_activation (activation r ids) ag) matches ag.

(** Modelled from the spec: on the assertion of a fact only the matches the
    new fact takes part in appear (section 4.2). *)
Definition new_matches (id : N) (fs : list Fact) (r : Rule) : list (list N) :=
  List.filter (λ ids, bool_decide (id ∈ ids)) (tuples (rule_patterns r) fs).

(** Modelled from the spec: the one constraint on a new fact kept here, that
    its template, if it names one, is defined (section 4.1). *)
Definition known (ts : list Template) (template : option string) : bool :=
  match template with
  | None => true
  | Some t => existsb (λ d, String.eqb (template_name d) t) ts
  end.

Definition new_fact (id : N) (t : option string * list value) : Fact :=
  {| fact_id := id; fact_template := t.1; fact_values := t.2 |}.

(** Modelled from the spec: [assert_fact] (sections 4.1 and 6) stores a fact
    under a fresh identifier and notifies the matcher before it returns; it
    fails on a constraint violation. *)
Definition assert_fact (t : option string * list value) (s : environment)
    : option (N * environment) :=
  if known (templates s) t.1 then
    let fs := (facts s ++ [new_fact (next_id s) t])%list in
    Some (next_id s,
          {| facts := fs; next_id := N.succ (next_id s);
             templates := templates s; rules := rules s;
             agenda :=
               fold_left (λ ag r, activate r (new_matches (next_id s) fs r) ag)
                         (rules s) (agenda s) |})
  else None.


(** Modelled from the spec: [retract(FactId)] (section 4.1) removes the fact
    and every activation that refers to it (section 4.2); an unknown
    identifier is an error. *)
Definition retract (id : N) (s : environment) : option environment :=
  if existsb (λ f, N.eqb (fact_id f) id) (facts s) then
    Some {| facts := List.filter (λ f, negb (N.eqb (fact_id f) id)) (facts s);
            next_id := next_id s; templates := templates s; rules := rules s;
            agenda := List.filter (λ a, negb (bool_decide (id ∈ activation_facts a)))
                                  (agenda s) |}
  else None.


(** Modelled from the spec: [define_template] (section 6). *)
Definition define_template (t : Template) (s : environment) : environment :=
  {| facts := facts s; next_id := next_id s; templates := (templates s ++ [t])%list;
     rules := rules s; agenda := agenda s |}.

(** Modelled from the spec: [define_rule] (section 6); every match among
    the facts already there is new to the rule. *)
Definition define_rule (r : Rule) (s : environment) : environment :=
  {| facts := facts s; next_id := next_id s; templates := templates s;
     rules := (rules s ++ [r])%list;
     agenda := activate r (tuples (rule_patterns r) (facts s)) (agenda s) |}.

(** Modelled from the spec: [pop()] (section 4.3).  The execution loop pops
    the top activation and fires its rule (section 4.4). *)
Definition fire (s : environment) : option (Activation * environment) :=
  match agenda s with
  | [] => None
  | a :: ag =>
      Some (a, {| facts := facts s; next_id := next_id s; templates := templates s;
                  rules := rules s; agenda := ag |})
  end.

(** The actions of the rule of that name. *)
Definition actions_of (name : string) (s : environment) : list Action :=
  match find (λ r, String.eqb (rule_name r) name) (rules s) with
  | Some r => rule_actions r
  | None => []
  end.





(** The rule has an activation waiting on the agenda. *)
Definition activated (name : string) (s : environment) : bool :=
  existsb (λ a, String.eqb (activation_rule a) name) (agenda s).

(** A rule of that name is defined. *)
Definition defined (name : string) (s : environment) : bool :=
  existsb (λ r, String.eqb (rule_name r) name) (rules s).

(** What the loader reads: the definition of a template or of a rule. *)
Inductive Construct : Type :=
  | DefTemplate (t : Template)
  | DefRule (r : Rule).

Definition define (c : Construct) (s : environment) : environment :=
  match c with
  | DefTemplate t => define_template t s
  | DefRule r => define_rule r s
  end.

(** Modelled from the spec: the loader (section 6), which the spec leaves
    out of scope and consumes as a capability: how the text of a construct
    and the text of an assertion are read. *)
Record Loader : Type := {
  parse_construct : string → option Construct;
  parse_assert : string → option (option string * list value)
}.

(** The state of the whole library: the live environments by handle. *)
Abbreviation state := (gmap N environment) (only parsing).

(** A command on one environment; it fails on a handle that is not live. *)
Definition on_environment (f : environment → environment) (env : N) (m : state)
    : native_status * state :=
  match m !! env with
  | Some s => (Done, <[env := f s]> m)
  | None => (Failed, m)
  end.

(** Modelled from the spec: the library over this engine.  It has the life
    cycle of section 4.5 ([destroy()] releases everything) and nothing
    besides: the loader is out of scope (section 6) and there is no writer
    and no evaluator, so those entry points answer 0 and leave the engine as
    it is.  The text of a handle stands in for the one cffi prints. *)
Definition lib : lib.t state :=
  {| lib.CreateEnvironment m :=
       let env := fresh (dom m) in (env, <[env := create]> m);
     lib.DestroyEnvironment env m := (Return 1, delete env m);
     lib.define_function env m := m;
     lib.add_to_environment env router m := m;
     lib.EnvBload env path m := (0, m);
     lib.EnvLoad env path m := (0, m);
     lib.EnvBsave env path m := (0, m);
     lib.EnvSave env path m := (0, m);
     lib.EnvBatchStar env path m := (0, m);
     lib.EnvBuild env construct m := (0, m);
     lib.EnvEval env construct m := ((0, VNone), m);
     lib.EnvReset := on_environment reset;
     lib.EnvClear := on_environment clear;
     lib.last_message env m := "[ENGINE] Not available.";
     lib.cdata_repr env := "<cdata 'void *' " +:+ pretty env +:+ ">" |}.

(** Modelled from the spec: the same library with a loader.  [EnvBuild]
    defines the construct the loader reads in the text, [EnvEval] asserts the
    fact the loader reads in it and hands back its identifier; both answer 0
    on a text the loader does not read, on a constraint violation and on a
    handle that is not live. *)
Definition scripted (loader : Loader) : lib.t state :=
  {| lib.CreateEnvironment := lib.CreateEnvironment lib;
     lib.DestroyEnvironment := lib.DestroyEnvironment lib;
     lib.define_function := lib.define_function lib;
     lib.add_to_environment := lib.add_to_environment lib;
     lib.EnvBload := lib.EnvBload lib;
     lib.EnvLoad := lib.EnvLoad lib;
     lib.EnvBsave := lib.EnvBsave lib;
     lib.EnvSave := lib.EnvSave lib;
     lib.EnvBatchStar := lib.EnvBatchStar lib;
     lib.EnvBuild env text m :=
       match parse_construct loader text, m !! env with
       | Some c, Some s => (1, <[env := define c s]> m)
       | _, _ => (0, m)
       end;
     lib.EnvEval env text m :=
       match parse_assert loader text, m !! env with
       | Some t, Some s =>
           match assert_fact t s with
           | Some (id, s') => ((1, VInteger (Z.of_N id)), <[env := s']> m)
           | None => ((0, VNone), m)
           end
       | _, _ => ((0, VNone), m)
       end;
     lib.EnvReset := lib.EnvReset lib;
     lib.EnvClear := lib.EnvClear lib;
     lib.last_message := lib.last_message lib;
     lib.cdata_repr := lib.cdata_repr lib |}.

End Engine.

(** * The execution loop *)

Module Agenda.

(** Modelled from the spec: an error of the fact store inside an action
    goes to the operation that called (section 7). *)
Definition ConstraintError : exn :=
  Exn "ConstraintError" ["Exception"; "BaseException"] "".

Definition NotFound : exn :=
  Exn "NotFound" ["Exception"; "BaseException"] "".

Section Loop.
Context (L : lib.t Engine.state).

(** The engine state of one environment. *)
Definition environment_of (env : handle) : M Engine.state Engine.environment := λ w,
  match engine w !! env with
  | Some s => (Return s, w)
  | None => (Raise NotFound, w)
  end.

Definition set_environment (env : handle) (s : Engine.environment)
    : M Engine.state unit := λ w,
  (Return tt,
   World (<[env := s]> (engine w)) (ENVIRONMENT_DATA w) (frame w) (cells w)
         (calls w)).

(** Modelled from the spec: one action of a rule (section 4.4).  A call of
    a user function goes through the callback of the module, with the name
    and the arguments as the frame and [result] as its result cell; the
    decorator [ffi.def_extern] keeps an exception of the callback from the
    engine, so the loop goes on. *)
Definition perform (env : handle) (result : pointer) (a : Engine.Action)
    : M Engine.state unit :=
  match a with
  | Engine.Assert template values =>
      s ← environment_of env;
      match Engine.assert_fact (template, values) s with
      | Some (_, s') => set_environment env s'
      | None => raise ConstraintError
      end
  | Engine.Retract id =>
      s ← environment_of env;
      match Engine.retract id s with
      | Some s' => set_environment env s'
      | None => raise NotFound
      end
  | Engine.Call name arguments => λ w,
      (Return tt,
       calling (frame w)
         (run (python_function L env result)
              (calling (VSymbol name :: arguments) w)))
  end.

Fixpoint perform_all (env : handle) (result : pointer) (actions : list Engine.Action)
    : M Engine.state unit :=
  match actions with
  | [] => mret tt
  | a :: actions' => perform env result a;; perform_all env result actions'
  end.

(** Modelled from the spec: [run(max_steps)] (section 4.4) pops the top
    activation and executes the actions of its rule, until the agenda is
    empty or [max_steps] rules have fired; it returns the names of the rules
    fired, in order.  Halting is left out. *)
Fixpoint run (env : handle) (result : pointer) (max_steps : nat)
    : M Engine.state (list string) :=
  match max_steps with
  | O => mret []
  | S n =>
      s ← environment_of env;
      match Engine.fire s with
      | None => mret []
      | Some (a, s') =>
          set_environment env s';;
          perform_all env result
            (Engine.actions_of (Engine.activation_rule a) s);;
          fired ← run env result n;
          mret (Engine.activation_rule a :: fired)
      end
  end.

End Loop.



End Agenda.

(** * Libraries and worlds to run the module in *)

(** A library that turns [reset] and [clear] down and is otherwise [L]; the
    native engine does so while it is executing a rule. *)
Definition busy {E} (L : lib.t E) : lib.t E :=
  {| lib.CreateEnvironment := lib.CreateEnvironment L;
     lib.DestroyEnvironment := lib.DestroyEnvironment L;
     lib.define_function := lib.define_function L;
     lib.add_to_environment := lib.add_to_environment L;
     lib.EnvBload := lib.EnvBload L;
     lib.EnvLoad := lib.EnvLoad L;
     lib.EnvBsave := lib.EnvBsave L;
     lib.EnvSave := lib.EnvSave L;
     lib.EnvBatchStar := lib.EnvBatchStar L;
     lib.EnvBuild := lib.EnvBuild L;
     lib.EnvEval := lib.EnvEval L;
     lib.EnvReset env e := (Failed, e);
     lib.EnvClear env e := (Failed, e);
     lib.last_message := lib.last_message L;
     lib.cdata_repr := lib.cdata_repr L |}.

(** A library whose loaders give fixed answers and is otherwise [L]. *)
Definition answering {E} (binary textual : Z) (L : lib.t E) : lib.t E :=
  {| lib.CreateEnvironment := lib.CreateEnvironment L;
     lib.DestroyEnvironment := lib.DestroyEnvironment L;
     lib.define_function := lib.define_function L;
     lib.add_to_environment := lib.add_to_environment L;
     lib.EnvBload env path e := (binary, e);
     lib.EnvLoad env path e := (textual, e);
     lib.EnvBsave := lib.EnvBsave L;
     lib.EnvSave := lib.EnvSave L;
     lib.EnvBatchStar := lib.EnvBatchStar L;
     lib.EnvBuild := lib.EnvBuild L;
     lib.EnvEval := lib.EnvEval L;
     lib.EnvReset := lib.EnvReset L;
     lib.EnvClear := lib.EnvClear L;
     lib.last_message := lib.last_message L;
     lib.cdata_repr := lib.cdata_repr L |}.

(** A library in which the interpreter is shutting down: the expression
    [lib.DestroyEnvironment(self._env)] raises [AttributeError]. *)
Definition shutting_down {E} (L : lib.t E) : lib.t E :=
  {| lib.CreateEnvironment := lib.CreateEnvironment L;
     lib.DestroyEnvironment env e :=
       (Raise (Exn "AttributeError" ["Exception"; "BaseException"]
                   "'NoneType' object has no attribute 'DestroyEnvironment'"), e);
     lib.define_function := lib.define_function L;
     lib.add_to_environment := lib.add_to_environment L;
     lib.EnvBload := lib.EnvBload L;
     lib.EnvLoad := lib.EnvLoad L;
     lib.EnvBsave := lib.EnvBsave L;
     lib.EnvSave := lib.EnvSave L;
     lib.EnvBatchStar := lib.EnvBatchStar L;
     lib.EnvBuild := lib.EnvBuild L;
     lib.EnvEval := lib.EnvEval L;
     lib.EnvReset := lib.EnvReset L;
     lib.EnvClear := lib.EnvClear L;
     lib.last_message := lib.last_message L;
     lib.cdata_repr := lib.cdata_repr L |}.

(** Nothing created yet. *)
Definition boot : world Engine.state := World ∅ ∅ [] ∅ [].

(** A fresh environment with the given functions defined, in order. *)
Definition started (functions : list callable) : M Engine.state Environment.t :=
  self ← Environment.__init__ Engine.lib;
  foldr (λ f m, Environment.define_function Engine.lib self f;; m)
        (mret self) functions.

(** [greet = lambda *args: 'hello'] *)
Definition greet : callable :=
  Callable "greet" (λ _, Return (VString "hello")).

(** [echo = lambda *args: list(args)] *)
Definition echo : callable :=
  Callable "echo" (λ arguments, Return (VMultifield arguments)).

(** [nothing = lambda *args: None] *)
Definition nothing : callable :=
  Callable "nothing" (λ _, Return VNone).

(** A function that does [raise ValueError('bad input')]. *)
Definition fail : callable :=
  Callable "fail"
    (λ _, Raise (Exn "ValueError" ["Exception"; "BaseException"] "bad input")).


(** A second function called [greet]. *)
Definition greet_again : callable :=
  Callable "greet" (λ _, Return (VString "hello again")).

(** A rule that greets whoever opens the door. *)
Definition greeting : Engine.Rule :=
  {| Engine.rule_name := "greeting";
     Engine.rule_salience := 0;
     Engine.rule_patterns :=
       [ {| Engine.pattern_template := None;
            Engine.pattern_filter vs :=
              match vs with
              | VSymbol s :: _ => String.eqb s "door"
              | _ => false
              end |} ];
     Engine.rule_actions := [Engine.Call "greet" [VString "door"]] |}.

(** A more salient rule on the same facts, which retracts fact 1. *)
Definition slam : Engine.Rule :=
  {| Engine.rule_name := "slam";
     Engine.rule_salience := 10;
     Engine.rule_patterns := Engine.rule_patterns greeting;
     Engine.rule_actions := [Engine.Retract 1%N] |}.

(** A loader that reads three texts. *)
Definition toy : Engine.Loader :=
  {| Engine.parse_construct text :=
       if String.eqb text "(defrule greeting (door $?) => (python-function greet door))"
       then Some (Engine.DefRule greeting)
       else if String.eqb text "(defrule slam (declare (salience 10)) ?f <- (door $?) => (retract ?f))"
       then Some (Engine.DefRule slam)
       else None;
     Engine.parse_assert text :=
       if String.eqb text "(assert (door open))"
       then Some (None, [VSymbol "door"; VSymbol "open"])
       else None |}.

(** The world of a program that created an environment, defined [greet],
    built the rule [greeting] and asserted that the door is open. *)
Definition household : world Engine.state :=
  run (self ← started [greet];
       Environment.build (Engine.scripted toy) self
         "(defrule greeting (door $?) => (python-function greet door))";;
       Environment.eval (Engine.scripted toy) self "(assert (door open))")
      boot.

(** The engine state of that environment. *)
Definition door_opened : Engine.environment :=
  default Engine.create (engine household !! 0%N).


(** * Properties *)

(** ** The argument loop *)

Lemma range_cons (start stop : Z) :
  start < stop → range start stop = start :: range (start + 1) stop.
Proof.
  intros Hlt. unfold range.
  rewrite seqZ_cons by lia. f_equal. f_equal; lia.
Qed.

Lemma range_nil (start stop : Z) : stop ≤ start → range start stop = [].
Proof.
  intros Hle. unfold range, seqZ.
  replace (Z.to_nat (stop - start)) with 0%nat by lia. reflexivity.
Qed.

(** Fetching the positions after a prefix [pre] of the frame appends the
    rest of the frame, in order. *)
Lemma fetch_arguments_app (pre suf : list value) (temp : value) (acc : list value) :
  snd (fold_left (fetch_argument (pre ++ suf))
         (range (Z.of_nat (length pre) + 1)
                (Z.of_nat (length (pre ++ suf)) + 1))
         (temp, acc))
  = (acc ++ suf)%list.
Proof.
  revert pre temp acc. induction suf as [|x suf IH]; intros pre temp acc.
  - rewrite app_nil_r, range_nil by lia. simpl. by rewrite app_nil_r.
  - rewrite range_cons by (rewrite length_app; simpl; lia).
    simpl fold_left.
    assert (Hx : lib.EnvRtnUnknown (pre ++ x :: suf)
                   (Z.of_nat (length pre) + 1) temp = x).
    { unfold lib.EnvRtnUnknown.
      replace (1 <=? Z.of_nat (length pre) + 1) with true
        by (symmetry; apply Z.leb_le; lia).
      replace (Z.to_nat (Z.of_nat (length pre) + 1 - 1)) with (length pre) by lia.
      by rewrite list_lookup_middle. }
    rewrite Hx.
    specialize (IH (pre ++ [x])%list x (acc ++ [x])%list).
    rewrite <- !app_assoc in IH. simpl app in IH.
    rewrite (length_app pre [x]) in IH. simpl length in IH.
    replace (Z.of_nat (length pre + 1) + 1) with (Z.of_nat (length pre) + 1 + 1)
      in IH by lia.
    exact IH.
Qed.

(** With the function name in position 1, the loop collects exactly the
    values after it. *)
Lemma fetch_arguments (first : value) (args : list value) (temp : value) :
  snd (fold_left (fetch_argument (first :: args))
         (range 2 (lib.EnvRtnArgCount (first :: args) + 1)) (temp, []))
  = args.
Proof.
  exact (fetch_arguments_app [first] args temp []).
Qed.

(** The type check on position 1 passes on symbols only. *)
Lemma EnvArgTypeCheck_SYMBOL (frame : list value) (temp : value) :
  fst (lib.EnvArgTypeCheck frame "python-function" 1 SYMBOL temp) = 1
  ↔ ∃ name args, frame = VSymbol name :: args.
Proof.
  unfold lib.EnvArgTypeCheck, lib.EnvRtnUnknown, lib.EnvRtnArgCount.
  destruct frame as [|v args]; simpl.
  - split; [discriminate | intros (? & ? & ?); discriminate].
  - replace (Z.pos (Pos.of_succ_nat (length args))) with (Z.of_nat (S (length args)))
      by reflexivity.
    destruct (1 <=? Z.of_nat (S (length args))) eqn:Hle;
      [| apply Z.leb_gt in Hle; lia].
    destruct v; simpl; split; try discriminate;
      try (intros (? & ? & ?); discriminate); eauto.
Qed.

(** ** The callback on a well-typed call *)

Section Callback.
Context {E : Type} (L : lib.t E).

(** When position 1 holds a symbol, the callback looks that symbol up and
    calls what it finds on the values after it. *)
Lemma python_function_symbol env data_object (w : world E) name args :
  frame w = VSymbol name :: args →
  python_function L env data_object w =
  (ret ← call_user_function L env (VSymbol name) args;
   DataObject_set_value data_object
     (if is_not_None ret then ret else VSymbol "nil")) w.
Proof.
  intros Hframe.
  unfold python_function, call_user_function, get_frame.
  unfold mbind at 1, M_bind at 1. rewrite Hframe.
  pose proof (fetch_arguments (VSymbol name) args (VSymbol name)) as Hargs.
  assert (Hcheck : lib.EnvArgTypeCheck (VSymbol name :: args) "python-function"
                     1 SYMBOL DataObject_new = (1, VSymbol name)).
  { unfold lib.EnvArgTypeCheck, lib.EnvRtnUnknown, lib.EnvRtnArgCount. simpl.
    replace (Z.pos (Pos.of_succ_nat (length args)))
      with (Z.of_nat (S (length args))) by reflexivity.
    destruct (1 <=? Z.of_nat (S (length args))) eqn:Hle; [done |].
    apply Z.leb_gt in Hle. lia. }
  rewrite Hcheck. simpl negb. cbv iota.
  destruct (fold_left _ _ _) as [temp arguments]. simpl in Hargs.
  by subst arguments.
Qed.

(** A registered function that runs to the end: its value, or [nil] for
    [None], is written to the result cell. *)
Lemma python_function_returns env data_object (w : world E) name args d f v :
  frame w = VSymbol name :: args →
  ENVIRONMENT_DATA w !! env = Some d →
  user_functions d !! name = Some f →
  __call__ f args = Return v →
  python_function L env data_object w =
  (Return tt,
   write_cell data_object (if is_not_None v then v else VSymbol "nil") w).
Proof.
  intros Hframe Hd Hf Hcall.
  rewrite (python_function_symbol _ _ _ _ _ Hframe).
  unfold call_user_function, try_except, mbind, M_bind,
    ENVIRONMENT_DATA_getitem, lift, DataObject_set_value.
  rewrite Hd. simpl. by rewrite Hf, Hcall.
Qed.

(** A registered function that raises: an instance of [Exception] becomes
    the text written to the result cell, anything else goes on. *)
Lemma python_function_raises env data_object (w : world E) name args d f error :
  frame w = VSymbol name :: args →
  ENVIRONMENT_DATA w !! env = Some d →
  user_functions d !! name = Some f →
  __call__ f args = Raise error →
  python_function L env data_object w =
  if isinstance error "Exception"
  then (Return tt, write_cell data_object (VString (format_error error)) w)
  else (Raise error, w).
Proof.
  intros Hframe Hd Hf Hcall.
  rewrite (python_function_symbol _ _ _ _ _ Hframe).
  unfold call_user_function, try_except, mbind, M_bind,
    ENVIRONMENT_DATA_getitem, lift, DataObject_set_value.
  rewrite Hd. simpl. rewrite Hf, Hcall. simpl.
  rewrite orb_false_r. by destruct (isinstance error "Exception").
Qed.

End Callback.

Example started_env :
  fst (started [greet; fail] boot) = Return {| Environment._env := 0%N |}.
Proof. vm_compute. reflexivity. Qed.

Example started_lookup :
  (ENVIRONMENT_DATA (run (started [greet; fail]) boot) !! 0%N)
    ≫= (λ d, user_functions d !! "fail") = Some fail.
Proof. vm_compute. reflexivity. Qed.

Example repr_plain : repr "missing" = "'missing'".
Proof. reflexivity. Qed.

Example repr_quote : repr "it's" = String dquote ("it's" +:+ String dquote "").
Proof. reflexivity. Qed.

Example repr_control : repr (String "010"%char "a\b") = "'\na\\b'".
Proof. reflexivity. Qed.

(** ** Exceptions raised by user functions *)




(** ** Names that are not registered *)

(** The lookup of a name that is not registered raises [KeyError] inside the
    [try] statement. *)
Lemma python_function_KeyError
    {E} (L : lib.t E) env data_object (w : world E) name args d :
  frame w = VSymbol name :: args →
  ENVIRONMENT_DATA w !! env = Some d →
  user_functions d !! name = None →
  python_function L env data_object w =
  (Return tt, write_cell data_object (VString (format_error (KeyError (repr name)))) w).
Proof.
  intros Hframe Hd Hf.
  rewrite (python_function_symbol L _ _ _ _ _ Hframe).
  unfold call_user_function, try_except, mbind, M_bind,
    ENVIRONMENT_DATA_getitem, lift, DataObject_set_value.
  rewrite Hd. simpl. by rewrite Hf.
Qed.

(** C2, as stated, fails: calling a name that is not registered raises
    nothing; the callback returns normally and the result cell holds an
    ordinary string. *)
Lemma python_function_unregistered_returns :
  let w := calling [VSymbol "missing"] (run (started [greet]) boot) in
  unregistered w 0%N "missing"
  ∧ python_function Engine.lib 0%N 7%N w
    = (Return tt, write_cell 7%N (VString "KeyError: 'missing'") w).
Proof.
  split; [eexists; split; vm_compute; reflexivity |].
  vm_compute. reflexivity.
Qed.

(** C2 (amended): for every name that is not registered in the registry of
    the environment, calling a user function by that name through the
    callback raises nothing: the [KeyError] of the lookup is caught like an
    exception of a user function, and the result cell holds the text
    "KeyError: <repr of the name>". *)
Theorem python_function_unregistered
    {E} (L : lib.t E) env data_object (w : world E) name args :
  frame w = VSymbol name :: args →
  unregistered w env name →
  python_function L env data_object w =
  (Return tt, write_cell data_object (VString ("KeyError: " +:+ repr name)) w).
Proof.
  intros Hframe (d & Hd & Hf).
  by rewrite (python_function_KeyError L _ _ _ _ _ _ Hframe Hd Hf).
Qed.

Lemma python_function_unregistered_witness :
  let w := calling [VSymbol "missing"; VString "x"] (run (started [greet]) boot) in
  python_function Engine.lib 0%N 7%N w
  = (Return tt, write_cell 7%N (VString "KeyError: 'missing'") w).
Proof.
  intros w.
  eapply (python_function_unregistered Engine.lib 0%N 7%N w "missing"
            [VString "x"]).
  - reflexivity.
  - eexists. split; vm_compute; reflexivity.
Defined.

(** ** Arguments and results *)

(** C5, as stated, fails: the value a registered function returns is not
    stored when it is [None]; the result cell then holds the symbol [nil]. *)
Lemma python_function_None_not_stored :
  let w := calling [VSymbol "nothing"; VInteger 1; VString "two"]
             (run (started [nothing]) boot) in
  registered w 0%N "nothing" nothing
  ∧ __call__ nothing [VInteger 1; VString "two"] = Return VNone
  ∧ cells (run (python_function Engine.lib 0%N 7%N) w) !! 7%N = Some (VSymbol "nil")
  ∧ cells (run (python_function Engine.lib 0%N 7%N) w) !! 7%N ≠ Some VNone.
Proof.
  split; [eexists; split; vm_compute; reflexivity |].
  vm_compute. split; [reflexivity |]. split; [reflexivity | discriminate].
Qed.

(** C5 (amended): for every registered user function called with n
    arguments after its name, the callback hands exactly those n values to
    the callable, in the order of the call site, and stores the value the
    callable returns in the result cell, unless that value is [None]. *)
Theorem python_function_passes_arguments
    {E} (L : lib.t E) env data_object (w : world E) name args f v :
  frame w = VSymbol name :: args →
  registered w env name f →
  __call__ f args = Return v →
  v ≠ VNone →
  python_function L env data_object w = (Return tt, write_cell data_object v w).
Proof.
  intros Hframe (d & Hd & Hf) Hcall Hv.
  rewrite (python_function_returns L _ _ _ _ _ _ _ _ Hframe Hd Hf Hcall).
  by destruct v.
Qed.

Lemma python_function_passes_arguments_witness :
  let w := calling [VSymbol "echo"; VInteger 1; VString "two"; VSymbol "three"]
             (run (started [greet; echo]) boot) in
  python_function Engine.lib 0%N 7%N w
  = (Return tt,
     write_cell 7%N (VMultifield [VInteger 1; VString "two"; VSymbol "three"]) w).
Proof.
  intros w.
  eapply (python_function_passes_arguments Engine.lib 0%N 7%N w "echo"
            [VInteger 1; VString "two"; VSymbol "three"] echo).
  - reflexivity.
  - eexists. split; vm_compute; reflexivity.
  - reflexivity.
  - discriminate.
Defined.

(** C8: when a registered user function returns [None] and raises nothing,
    the result the engine sees is the symbol [nil]. *)
Theorem python_function_None_is_nil
    {E} (L : lib.t E) env data_object (w : world E) name args f :
  frame w = VSymbol name :: args →
  registered w env name f →
  __call__ f args = Return VNone →
  python_function L env data_object w
  = (Return tt, write_cell data_object (VSymbol "nil") w)
  ∧ cells (run (python_function L env data_object) w) !! data_object
    = Some (VSymbol "nil").
Proof.
  intros Hframe (d & Hd & Hf) Hcall.
  unfold run.
  rewrite (python_function_returns L _ _ _ _ _ _ _ _ Hframe Hd Hf Hcall).
  split; [reflexivity |]. simpl. apply lookup_insert_eq.
Qed.

Lemma python_function_None_is_nil_witness :
  let w := calling [VSymbol "nothing"; VInteger 1] (run (started [nothing]) boot) in
  python_function Engine.lib 0%N 7%N w
  = (Return tt, write_cell 7%N (VSymbol "nil") w)
  ∧ cells (run (python_function Engine.lib 0%N 7%N) w) !! 7%N
    = Some (VSymbol "nil").
Proof.
  intros w.
  eapply (python_function_None_is_nil Engine.lib 0%N 7%N w "nothing"
            [VInteger 1] nothing).
  - reflexivity.
  - eexists. split; vm_compute; reflexivity.
  - reflexivity.
Defined.

(** ** The type check *)

(** C10: when the argument in position 1 is not a symbol, the callback
    raises [RuntimeError] before any user function is looked up or called.
    The check stands outside the [try] statement, so the exception leaves
    the callback: no text is made of it and no result cell is written. *)
Theorem python_function_type_check_raises
    {E} (L : lib.t E) env data_object (w : world E) :
  first_argument_type (frame w) ≠ Some SYMBOL →
  python_function L env data_object w = (Raise RuntimeError, w)
  ∧ cells (run (python_function L env data_object) w) = cells w.
Proof.
  intros Htype.
  assert (Hcheck : fst (lib.EnvArgTypeCheck (frame w) "python-function" 1 SYMBOL
                          DataObject_new) ≠ 1).
  { intros Hone. apply EnvArgTypeCheck_SYMBOL in Hone as (name & args & Hframe).
    apply Htype. by rewrite Hframe. }
  assert (Hrun : python_function L env data_object w = (Raise RuntimeError, w)).
  { unfold python_function, get_frame. unfold mbind at 1, M_bind at 1.
    destruct (lib.EnvArgTypeCheck _ _ _ _ _) as [checked temp]. simpl in Hcheck.
    destruct (checked =? 1) eqn:Heq; [apply Z.eqb_eq in Heq; contradiction |].
    reflexivity. }
  unfold run. by rewrite Hrun.
Qed.

Lemma python_function_type_check_raises_witness :
  let w := calling [VString "greet"; VInteger 1] (run (started [greet]) boot) in
  python_function Engine.lib 0%N 7%N w = (Raise RuntimeError, w)
  ∧ cells (run (python_function Engine.lib 0%N 7%N) w) = cells w.
Proof.
  intros w.
  apply (python_function_type_check_raises Engine.lib 0%N 7%N w).
  discriminate.
Defined.

(** ** Registering functions *)

(** A fresh environment has an entry in [ENVIRONMENT_DATA], with no user
    function in it. *)
Lemma init_registers {E} (L : lib.t E) (w : world E) :
  ∃ self w',
    Environment.__init__ L w = (Return self, w')
    ∧ Environment._env self = fst (lib.CreateEnvironment L (engine w))
    ∧ ENVIRONMENT_DATA w' !! Environment._env self
      = Some {| user_functions := ∅;
                error_router := {| router_name := "python-error-router";
                                   router_priority := 40 |} |}.
Proof.
  unfold Environment.__init__, mbind, M_bind, native, mret, M_ret,
    ENVIRONMENT_DATA_setitem.
  destruct (lib.CreateEnvironment L (engine w)) as [env e1] eqn:Hcreate.
  simpl. eexists _, _. split; [reflexivity |]. simpl.
  split; [reflexivity |]. apply lookup_insert_eq.
Qed.

(** Defining a function binds its name and leaves the other names alone. *)
Lemma define_function_binds {E} (L : lib.t E) self f (w : world E) d :
  ENVIRONMENT_DATA w !! Environment._env self = Some d →
  Environment.define_function L self f w =
  (Return tt,
   World (engine w)
     (<[Environment._env self :=
          {| user_functions := <[__name__ f := f]> (user_functions d);
             error_router := error_router d |}]> (ENVIRONMENT_DATA w))
     (frame w) (cells w) (calls w)).
Proof.
  intros Hd.
  unfold Environment.define_function, mbind, M_bind, ENVIRONMENT_DATA_getitem,
    ENVIRONMENT_DATA_setitem.
  by rewrite Hd.
Qed.

(** C3: for every environment and every two callables with the same name,
    defining the second after the first raises nothing and replaces the
    binding: looking the name up in the registry of the environment gives the
    callable defined last. *)
Theorem define_function_last_write_wins
    {E} (L : lib.t E) self f g (w : world E) d :
  ENVIRONMENT_DATA w !! Environment._env self = Some d →
  __name__ f = __name__ g →
  ∃ w1 w2 d2,
    Environment.define_function L self f w = (Return tt, w1)
    ∧ Environment.define_function L self g w1 = (Return tt, w2)
    ∧ ENVIRONMENT_DATA w2 !! Environment._env self = Some d2
    ∧ user_functions d2 !! __name__ f = Some g.
Proof.
  intros Hd Hname.
  eexists _, _, _. split; [by apply define_function_binds |].
  split.
  - apply define_function_binds. simpl. apply lookup_insert_eq.
  - simpl. split; [apply lookup_insert_eq |]. simpl.
    rewrite Hname. apply lookup_insert_eq.
Qed.

Lemma define_function_last_write_wins_witness :
  ∃ w1 w2 d2,
    Environment.define_function Engine.lib {| Environment._env := 0%N |} greet
      (run (started []) boot) = (Return tt, w1)
    ∧ Environment.define_function Engine.lib {| Environment._env := 0%N |}
        greet_again w1 = (Return tt, w2)
    ∧ ENVIRONMENT_DATA w2 !! 0%N = Some d2
    ∧ user_functions d2 !! "greet" = Some greet_again.
Proof.
  eapply (define_function_last_write_wins Engine.lib
            {| Environment._env := 0%N |} greet greet_again
            (run (started []) boot)).
  - vm_compute. reflexivity.
  - reflexivity.
Defined.

(** ** Destroying an environment *)

(** With no entry for the handle, the lookup inside the [try] statement of
    the callback fails, whatever name is called. *)
Lemma python_function_no_entry
    {E} (L : lib.t E) env data_object (w : world E) name args :
  frame w = VSymbol name :: args →
  ENVIRONMENT_DATA w !! env = None →
  python_function L env data_object w =
  (Return tt,
   write_cell data_object (VString ("KeyError: " +:+ lib.cdata_repr L env)) w).
Proof.
  intros Hframe Hd.
  rewrite (python_function_symbol L _ _ _ _ _ Hframe).
  unfold call_user_function, try_except, mbind, M_bind,
    ENVIRONMENT_DATA_getitem, lift, DataObject_set_value.
  by rewrite Hd.
Qed.

(** When the native call raises one of the three exceptions the finaliser
    expects, nothing is deleted and nothing is raised. *)
Lemma del_swallows {E} (L : lib.t E) self (w : world E) error e' :
  lib.DestroyEnvironment L (Environment._env self) (engine w) = (Raise error, e') →
  existsb (isinstance error) ["AttributeError"; "KeyError"; "TypeError"] = true →
  Environment.__del__ L self w
  = (Return tt, after (DestroyEnvironment_ (Environment._env self)) e' w).
Proof.
  intros Hdestroy Hinst.
  unfold Environment.__del__, try_except, mbind, M_bind, native_raising.
  rewrite Hdestroy. by rewrite Hinst.
Qed.

Example del_at_shutdown :
  let w := run (started [greet]) boot in
  let w' := run (Environment.__del__ (shutting_down Engine.lib)
                   {| Environment._env := 0%N |}) w in
  fst (Environment.__del__ (shutting_down Engine.lib)
         {| Environment._env := 0%N |} w) = Return tt
  ∧ (ENVIRONMENT_DATA w' !! 0%N) ≫= (λ d, user_functions d !! "greet") = Some greet.
Proof. vm_compute. split; reflexivity. Qed.

Example del_twice :
  let self := {| Environment._env := 0%N |} in
  fst ((Environment.__del__ Engine.lib self;; Environment.__del__ Engine.lib self)
         (run (started [greet]) boot)) = Return tt.
Proof. vm_compute. reflexivity. Qed.

(** C7: destroying an environment removes the callback bindings scoped to
    it.  Once the native environment is destroyed, the entry of the
    environment (its registry of user functions and its error router) is no
    longer in the process-wide [ENVIRONMENT_DATA]; the entries of other
    environments stay; and a call of any name on the destroyed handle
    reaches no registered function. *)
Theorem del_removes_environment_data
    {E} (L : lib.t E) self (w : world E) r e' :
  lib.DestroyEnvironment L (Environment._env self) (engine w) = (Return r, e') →
  ∃ w',
    Environment.__del__ L self w = (Return tt, w')
    ∧ ENVIRONMENT_DATA w' !! Environment._env self = None
    ∧ (∀ env, env ≠ Environment._env self →
         ENVIRONMENT_DATA w' !! env = ENVIRONMENT_DATA w !! env)
    ∧ (∀ name args data_object,
         python_function L (Environment._env self) data_object
           (calling (VSymbol name :: args) w')
         = (Return tt,
            write_cell data_object
              (VString ("KeyError: " +:+ lib.cdata_repr L (Environment._env self)))
              (calling (VSymbol name :: args) w'))).
Proof.
  intros Hdestroy.
  unfold Environment.__del__, try_except, mbind, M_bind, native_raising,
    ENVIRONMENT_DATA_delitem.
  rewrite Hdestroy. simpl.
  destruct (ENVIRONMENT_DATA w !! Environment._env self) as [d|] eqn:Hd.
  - eexists. split; [reflexivity |]. simpl.
    split; [apply lookup_delete_eq |].
    split; [intros env Hne; by apply lookup_delete_ne |].
    intros name args data_object.
    apply (python_function_no_entry L _ _ _ name args); [reflexivity |].
    simpl. apply lookup_delete_eq.
  - simpl. eexists. split; [reflexivity |]. simpl.
    split; [exact Hd |]. split; [done |].
    intros name args data_object.
    apply (python_function_no_entry L _ _ _ name args); [reflexivity | exact Hd].
Qed.

Lemma del_removes_environment_data_witness :
  ∃ w',
    Environment.__del__ Engine.lib {| Environment._env := 0%N |}
      (run (started [greet; fail]) boot) = (Return tt, w')
    ∧ ENVIRONMENT_DATA w' !! 0%N = None
    ∧ (∀ env, env ≠ 0%N →
         ENVIRONMENT_DATA w' !! env
         = ENVIRONMENT_DATA (run (started [greet; fail]) boot) !! env)
    ∧ (∀ name args data_object,
         python_function Engine.lib 0%N data_object
           (calling (VSymbol name :: args) w')
         = (Return tt,
            write_cell data_object
              (VString ("KeyError: " +:+ lib.cdata_repr Engine.lib 0%N))
              (calling (VSymbol name :: args) w'))).
Proof.
  eapply (del_removes_environment_data Engine.lib {| Environment._env := 0%N |}
            (run (started [greet; fail]) boot) 1).
  vm_compute. reflexivity.
Defined.

(** ** Loading *)

Example load_binary :
  let w := run (started []) boot in
  Environment.load (answering 1 0 Engine.lib) {| Environment._env := 0%N |}
    "rules.bin" w
  = (Return tt, after (EnvBload_ 0%N "rules.bin") (engine w) w).
Proof. vm_compute. reflexivity. Qed.

Example load_textual :
  let w := run (started []) boot in
  Environment.load (answering 0 1 Engine.lib) {| Environment._env := 0%N |}
    "rules.clp" w
  = (Return tt,
     after (EnvLoad_ 0%N "rules.clp") (engine w)
       (after (EnvBload_ 0%N "rules.clp") (engine w) w)).
Proof. vm_compute. reflexivity. Qed.

Example load_neither :
  let w := run (started []) boot in
  fst (Environment.load (answering 0 (-1) Engine.lib) {| Environment._env := 0%N |}
         "rules.txt" w)
  = Raise (CLIPSError "[ENGINE] Not available.").
Proof. vm_compute. reflexivity. Qed.

(** C9: [load(path)] first tries a binary load; only if that does not answer
    1 does it try a textual load, on the engine the first attempt left; it
    raises [CLIPSError] exactly when neither attempt answers 1, and returns
    normally as soon as one does. *)
Theorem load_binary_then_text {E} (L : lib.t E) self path (w : world E) :
  let env := Environment._env self in
  let binary := lib.EnvBload L env (encode path) (engine w) in
  let textual := lib.EnvLoad L env (encode path) (snd binary) in
  let w1 := after (EnvBload_ env (encode path)) (snd binary) w in
  let w2 := after (EnvLoad_ env (encode path)) (snd textual) w1 in
  Environment.load L self path w
  = (if fst binary =? 1 then (Return tt, w1)
     else if fst textual =? 1 then (Return tt, w2)
     else (Raise (CLIPSError (lib.last_message L env (snd textual))), w2))
  ∧ ((∃ error, fst (Environment.load L self path w) = Raise error)
     ↔ fst binary ≠ 1 ∧ fst textual ≠ 1)
  ∧ (calls (run (Environment.load L self path) w)
     = if fst binary =? 1
       then (calls w ++ [EnvBload_ env (encode path)])%list
       else (calls w ++ [EnvBload_ env (encode path); EnvLoad_ env (encode path)])%list).
Proof.
  intros env binary textual w1 w2.
  assert (Hload : Environment.load L self path w
    = (if fst binary =? 1 then (Return tt, w1)
       else if fst textual =? 1 then (Return tt, w2)
       else (Raise (CLIPSError (lib.last_message L env (snd textual))), w2))).
  { unfold Environment.load, mbind, M_bind, native, raise_CLIPSError, mret, M_ret.
    subst w1 w2 textual binary env.
    destruct (lib.EnvBload L _ _ _) as [b e1]. simpl.
    destruct (b =? 1); simpl; [reflexivity |].
    destruct (lib.EnvLoad L _ _ _) as [t e2]. simpl.
    by destruct (t =? 1). }
  split; [exact Hload |]. unfold run. rewrite Hload. split.
  - destruct (fst binary =? 1) eqn:Hb; simpl.
    + apply Z.eqb_eq in Hb. split; [intros [? ?]; discriminate | tauto].
    + apply Z.eqb_neq in Hb.
      destruct (fst textual =? 1) eqn:Ht; simpl.
      * apply Z.eqb_eq in Ht. split; [intros [? ?]; discriminate | tauto].
      * apply Z.eqb_neq in Ht. split; [tauto | eauto].
  - destruct (fst binary =? 1); simpl; [reflexivity |].
    destruct (fst textual =? 1); simpl; by rewrite <- app_assoc.
Qed.

(** ** Failures of the native library *)

(** C4, as stated, fails: on an engine that turns [reset] and [clear] down,
    both methods return normally and raise nothing. *)
Lemma reset_ignores_native_failure :
  let w := run (started [greet]) boot in
  let self := {| Environment._env := 0%N |} in
  fst (lib.EnvReset (busy Engine.lib) 0%N (engine w)) = Failed
  ∧ Environment.reset (busy Engine.lib) self w
    = (Return tt, after (EnvReset_ 0%N) (engine w) w)
  ∧ fst (lib.EnvClear (busy Engine.lib) 0%N (engine w)) = Failed
  ∧ Environment.clear (busy Engine.lib) self w
    = (Return tt, after (EnvClear_ 0%N) (engine w) w).
Proof.
  vm_compute. repeat split; reflexivity.
Qed.

(** C4 (amended): the methods that test the answer of the native call raise
    [CLIPSError], carrying the text of the error router, when the answer
    reports a failure: [load] when neither attempt answers 1, [save] on 0,
    [batch_star], [build] and [eval] on anything but 1.  [reset] and [clear]
    pass the command to the engine and return normally, whatever the engine
    made of it. *)
Theorem failures_raise_except_reset_clear {E} (L : lib.t E) self (w : world E) :
  let env := Environment._env self in
  (∀ path,
     let binary := lib.EnvBload L env (encode path) (engine w) in
     let textual := lib.EnvLoad L env (encode path) (snd binary) in
     fst (Environment.load L self path w)
     = if (fst binary =? 1) || (fst textual =? 1) then Return tt
       else Raise (CLIPSError (lib.last_message L env (snd textual))))
  ∧ (∀ path (binary : bool),
       let saved := (if binary then lib.EnvBsave L else lib.EnvSave L) env
                      (encode path) (engine w) in
       fst (Environment.save L self path binary w)
       = if fst saved =? 0
         then Raise (CLIPSError (lib.last_message L env (snd saved)))
         else Return tt)
  ∧ (∀ path,
       let batch := lib.EnvBatchStar L env (encode path) (engine w) in
       fst (Environment.batch_star L self path w)
       = if fst batch =? 1 then Return tt
         else Raise (CLIPSError (lib.last_message L env (snd batch))))
  ∧ (∀ construct,
       let built := lib.EnvBuild L env (encode construct) (engine w) in
       fst (Environment.build L self construct w)
       = if fst built =? 1 then Return tt
         else Raise (CLIPSError (lib.last_message L env (snd built))))
  ∧ (∀ construct,
       let evaluated := lib.EnvEval L env (encode construct) (engine w) in
       fst (Environment.eval L self construct w)
       = if fst (fst evaluated) =? 1 then Return (snd (fst evaluated))
         else Raise (CLIPSError (lib.last_message L env (snd evaluated))))
  ∧ Environment.reset L self w
    = (Return tt, after (EnvReset_ env) (snd (lib.EnvReset L env (engine w))) w)
  ∧ Environment.clear L self w
    = (Return tt, after (EnvClear_ env) (snd (lib.EnvClear L env (engine w))) w).
Proof.
  intros env. subst env. repeat split.
  - intros path binary textual. subst textual binary.
    unfold Environment.load, mbind, M_bind, native, raise_CLIPSError, mret, M_ret.
    destruct (lib.EnvBload L _ _ _) as [b e1]. simpl.
    destruct (b =? 1); simpl; [reflexivity |].
    destruct (lib.EnvLoad L _ _ _) as [t e2]. simpl.
    by destruct (t =? 1).
  - intros path binary saved. subst saved.
    unfold Environment.save, mbind, M_bind, native, raise_CLIPSError, mret, M_ret.
    destruct binary.
    + destruct (lib.EnvBsave L _ _ _) as [r e1]. simpl. by destruct (r =? 0).
    + destruct (lib.EnvSave L _ _ _) as [r e1]. simpl. by destruct (r =? 0).
  - intros path batch. subst batch.
    unfold Environment.batch_star, mbind, M_bind, native, raise_CLIPSError,
      mret, M_ret.
    destruct (lib.EnvBatchStar L _ _ _) as [r e1]. simpl. by destruct (r =? 1).
  - intros construct built. subst built.
    unfold Environment.build, mbind, M_bind, native, raise_CLIPSError, mret, M_ret.
    destruct (lib.EnvBuild L _ _ _) as [r e1]. simpl. by destruct (r =? 1).
  - intros construct evaluated. subst evaluated.
    unfold Environment.eval, mbind, M_bind, native, raise_CLIPSError, mret, M_ret.
    destruct (lib.EnvEval L _ _ _) as [[r data] e1]. simpl. by destruct (r =? 1).
  - unfold Environment.reset, mbind, M_bind, native, mret, M_ret.
    by destruct (lib.EnvReset L _ _) as [status e1].
  - unfold Environment.clear, mbind, M_bind, native, mret, M_ret.
    by destruct (lib.EnvClear L _ _) as [status e1].
Qed.

(** ** The engine of the spec: matcher and agenda *)





















(** ** Reset and clear *)

Example household_fires :
  fst (Agenda.run (Engine.scripted toy) 0%N 7%N 10 household) = Return ["greeting"]
  ∧ cells (run (Agenda.run (Engine.scripted toy) 0%N 7%N 10) household) !! 7%N
    = Some (VString "hello").
Proof. vm_compute. split; reflexivity. Qed.

Example household_defined :
  Engine.activated "greeting" door_opened = true
  ∧ Engine.activated "greeting" (Engine.reset door_opened) = false
  ∧ Engine.defined "greeting" (Engine.reset door_opened) = true
  ∧ Engine.defined "greeting" (Engine.clear door_opened) = false.
Proof. vm_compute. repeat split; reflexivity. Qed.

(** Neither method touches [ENVIRONMENT_DATA], on any library. *)
Lemma reset_clear_keep_ENVIRONMENT_DATA {E} (L : lib.t E) self (w : world E) :
  ENVIRONMENT_DATA (run (Environment.reset L self) w) = ENVIRONMENT_DATA w
  ∧ ENVIRONMENT_DATA (run (Environment.clear L self) w) = ENVIRONMENT_DATA w.
Proof.
  unfold run, Environment.reset, Environment.clear, mbind, M_bind, native.
  destruct (lib.EnvReset L _ _), (lib.EnvClear L _ _). done.
Qed.




(** * Further properties of the module *)

(** ** Creating, defining, calling *)

(** The [try] statement leaves the world as it is, and lets no instance of
    [Exception] out. *)
Lemma call_user_function_contained
    {E} (L : lib.t E) env funcname arguments (w : world E) :
  snd (call_user_function L env funcname arguments w) = w
  ∧ match fst (call_user_function L env funcname arguments w) with
    | Return _ => True
    | Raise error => isinstance error "Exception" = false
    end.
Proof.
  unfold call_user_function, try_except, mbind, M_bind,
    ENVIRONMENT_DATA_getitem, lift.
  destruct (ENVIRONMENT_DATA w !! env) as [d|]; simpl; [| done].
  destruct (user_functions_getitem (user_functions d) funcname) as [f|error] eqn:Hget;
    simpl.
  - destruct (__call__ f arguments) as [v|error]; simpl; [done |].
    rewrite orb_false_r.
    destruct (isinstance error "Exception") eqn:Hinst; simpl; done.
  - assert (Hinst : isinstance error "Exception" = true).
    { destruct funcname; simpl in Hget; try (by inversion Hget).
      - destruct (user_functions d !! s); by inversion Hget.
      - destruct (user_functions d !! s); by inversion Hget. }
    rewrite orb_false_r, Hinst. done.
Qed.

(** A frame that does not start with a symbol stops the callback at the
    type check. *)
Lemma python_function_not_symbol {E} (L : lib.t E) env data_object (w : world E) :
  first_argument_type (frame w) ≠ Some SYMBOL →
  python_function L env data_object w = (Raise RuntimeError, w).
Proof.
  intros Htype.
  assert (Hcheck : fst (lib.EnvArgTypeCheck (frame w) "python-function" 1 SYMBOL
                          DataObject_new) ≠ 1).
  { intros Hone. apply EnvArgTypeCheck_SYMBOL in Hone as (name & args & Hframe).
    apply Htype. by rewrite Hframe. }
  unfold python_function, get_frame. unfold mbind at 1, M_bind at 1.
  destruct (lib.EnvArgTypeCheck _ _ _ _ _) as [checked temp]. simpl in Hcheck.
  destruct (checked =? 1) eqn:Heq; [apply Z.eqb_eq in Heq; contradiction |].
  reflexivity.
Qed.

Lemma first_argument_type_SYMBOL (frame : list value) :
  first_argument_type frame = Some SYMBOL ↔ ∃ name args, frame = VSymbol name :: args.
Proof.
  split.
  - destruct frame as [|v args]; [discriminate |].
    destruct v; try discriminate. eauto.
  - by intros (name & args & ->).
Qed.

(** X1: a function defined on a fresh environment is the one the callback
    calls under its name.  After [Environment()] and [define_function(f)],
    a call [(python-function name args...)] with the name of [f] hands
    [args] to [f] and stores what [f] returns ([nil] for [None]). *)
Theorem defined_function_is_called
    {E} (L : lib.t E) (w : world E) f args data_object v :
  __call__ f args = Return v →
  ∃ self w1 w2,
    Environment.__init__ L w = (Return self, w1)
    ∧ Environment.define_function L self f w1 = (Return tt, w2)
    ∧ registered w2 (Environment._env self) (__name__ f) f
    ∧ python_function L (Environment._env self) data_object
        (calling (VSymbol (__name__ f) :: args) w2)
      = (Return tt,
         write_cell data_object (if is_not_None v then v else VSymbol "nil")
           (calling (VSymbol (__name__ f) :: args) w2)).
Proof.
  intros Hcall.
  destruct (init_registers L w) as (self & w1 & Hinit & _ & Hd).
  exists self, w1. eexists. split; [exact Hinit |].
  split; [by apply define_function_binds |].
  assert (Hreg : ∀ (w2 : world E) d2,
            ENVIRONMENT_DATA w2 !! Environment._env self = Some d2 →
            user_functions d2 !! __name__ f = Some f →
            registered w2 (Environment._env self) (__name__ f) f)
    by (intros w2 d2 ? ?; by exists d2).
  split.
  - eapply Hreg; simpl; [apply lookup_insert_eq |]. simpl. apply lookup_insert_eq.
  - eapply python_function_returns; [reflexivity | | | exact Hcall].
    + simpl. apply lookup_insert_eq.
    + simpl. apply lookup_insert_eq.
Qed.

Lemma defined_function_is_called_witness :
  ∃ self w1 w2,
    Environment.__init__ Engine.lib boot = (Return self, w1)
    ∧ Environment.define_function Engine.lib self echo w1 = (Return tt, w2)
    ∧ registered w2 (Environment._env self) "echo" echo
    ∧ python_function Engine.lib (Environment._env self) 7%N
        (calling [VSymbol "echo"; VInteger 1; VSymbol "b"] w2)
      = (Return tt,
         write_cell 7%N (VMultifield [VInteger 1; VSymbol "b"])
           (calling [VSymbol "echo"; VInteger 1; VSymbol "b"] w2)).
Proof.
  apply (defined_function_is_called Engine.lib boot echo
           [VInteger 1; VSymbol "b"] 7%N (VMultifield [VInteger 1; VSymbol "b"])).
  reflexivity.
Defined.

(** X2: in an environment that was just created no user function can be
    reached: whatever name the engine calls, the callback stores the text of
    the [KeyError]. *)
Theorem fresh_environment_has_no_function
    {E} (L : lib.t E) (w : world E) name args data_object :
  ∃ self w1,
    Environment.__init__ L w = (Return self, w1)
    ∧ unregistered w1 (Environment._env self) name
    ∧ calls w1 = (calls w ++
        [CreateEnvironment_;
         define_function_ (Environment._env self);
         add_to_environment_ (Environment._env self)
           {| router_name := "python-error-router"; router_priority := 40 |}])%list
    ∧ python_function L (Environment._env self) data_object
        (calling (VSymbol name :: args) w1)
      = (Return tt,
         write_cell data_object (VString ("KeyError: " +:+ repr name))
           (calling (VSymbol name :: args) w1)).
Proof.
  unfold Environment.__init__, mbind, M_bind, native, mret, M_ret,
    ENVIRONMENT_DATA_setitem.
  destruct (lib.CreateEnvironment L (engine w)) as [env e1] eqn:Hcreate.
  simpl. eexists _, _. split; [reflexivity |]. simpl.
  split; [| split].
  - eexists. split; [apply lookup_insert_eq |]. apply lookup_empty.
  - by rewrite <- !app_assoc.
  - eapply python_function_KeyError; [reflexivity | |].
    + simpl. apply lookup_insert_eq.
    + apply lookup_empty.
Qed.

(** ** The registry of one environment *)

(** X3: defining a function touches one binding of one registry.  Every
    other name of the environment, and every name of every other
    environment, finds what it found before; the engine, the frame, the
    result cells and the log of native calls are as they were. *)
Theorem define_function_scoped {E} (L : lib.t E) self f (w : world E) d :
  ENVIRONMENT_DATA w !! Environment._env self = Some d →
  ∃ w',
    Environment.define_function L self f w = (Return tt, w')
    ∧ registered w' (Environment._env self) (__name__ f) f
    ∧ (∀ name g, name ≠ __name__ f →
         registered w' (Environment._env self) name g
         ↔ registered w (Environment._env self) name g)
    ∧ (∀ env name g, env ≠ Environment._env self →
         registered w' env name g ↔ registered w env name g)
    ∧ engine w' = engine w ∧ frame w' = frame w
    ∧ cells w' = cells w ∧ calls w' = calls w.
Proof.
  intros Hd. eexists. split; [by apply define_function_binds |].
  split; [| split; [| split]].
  - eexists. simpl. split; [apply lookup_insert_eq |]. simpl.
    apply lookup_insert_eq.
  - intros name g Hne. unfold registered. simpl. rewrite lookup_insert_eq. split.
    + intros (d' & Heq & Hg). inversion Heq; subst d'. simpl in Hg.
      rewrite lookup_insert_ne in Hg by done. by exists d.
    + intros (d' & Heq & Hg). rewrite Hd in Heq. inversion Heq; subst d'.
      eexists. split; [reflexivity |]. simpl. by rewrite lookup_insert_ne.
  - intros env name g Hne. unfold registered. simpl.
    by rewrite lookup_insert_ne.
  - done.
Qed.

Lemma define_function_scoped_witness :
  ∃ w',
    Environment.define_function Engine.lib {| Environment._env := 0%N |} fail
      (run (started [greet]) boot) = (Return tt, w')
    ∧ registered w' 0%N "fail" fail
    ∧ registered w' 0%N "greet" greet.
Proof.
  destruct (define_function_scoped Engine.lib {| Environment._env := 0%N |} fail
              (run (started [greet]) boot)
              {| user_functions := {[ "greet" := greet ]};
                 error_router := {| router_name := "python-error-router";
                                    router_priority := 40 |} |})
    as (w' & Hrun & Hfail & Hothers & _).
  - vm_compute. reflexivity.
  - exists w'. split; [exact Hrun |]. split; [exact Hfail |].
    apply (Hothers "greet" greet); [discriminate |].
    eexists. split; vm_compute; reflexivity.
Defined.

(** X4: functions with different names can be defined in either order; the
    world that results is the same. *)
Theorem define_function_commutes {E} (L : lib.t E) self f g (w : world E) :
  __name__ f ≠ __name__ g →
  (Environment.define_function L self f;; Environment.define_function L self g) w
  = (Environment.define_function L self g;; Environment.define_function L self f) w.
Proof.
  intros Hne.
  unfold mbind, M_bind.
  destruct (ENVIRONMENT_DATA w !! Environment._env self) as [d|] eqn:Hd.
  - rewrite (define_function_binds L self f w d Hd),
      (define_function_binds L self g w d Hd).
    erewrite !define_function_binds by (simpl; apply lookup_insert_eq).
    simpl. rewrite !insert_insert_eq. do 3 f_equal.
    f_equal. by apply insert_insert_ne.
  - unfold Environment.define_function, mbind, M_bind, ENVIRONMENT_DATA_getitem.
    by rewrite Hd.
Qed.

Lemma define_function_commutes_witness :
  (Environment.define_function Engine.lib {| Environment._env := 0%N |} greet;;
   Environment.define_function Engine.lib {| Environment._env := 0%N |} fail)
    (run (started []) boot)
  = (Environment.define_function Engine.lib {| Environment._env := 0%N |} fail;;
     Environment.define_function Engine.lib {| Environment._env := 0%N |} greet)
      (run (started []) boot).
Proof.
  apply (define_function_commutes Engine.lib {| Environment._env := 0%N |}
           greet fail (run (started []) boot)).
  discriminate.
Defined.

(** ** The finaliser *)

(** X5: what [__del__] does, in full.  When the native call returns, the
    entry of the environment is gone afterwards whether or not it was there
    (the [KeyError] of a missing entry is swallowed).  When the native call
    raises [AttributeError], [KeyError] or [TypeError], the finaliser returns
    normally and deletes nothing.  Any other exception goes on.  So the
    finaliser never raises one of those three. *)
Theorem del_in_full {E} (L : lib.t E) self (w : world E) :
  let env := Environment._env self in
  let destroyed := lib.DestroyEnvironment L env (engine w) in
  let w1 := after (DestroyEnvironment_ env) (snd destroyed) w in
  Environment.__del__ L self w
  = match fst destroyed with
    | Return _ =>
        (Return tt,
         World (engine w1) (delete env (ENVIRONMENT_DATA w1)) (frame w1)
               (cells w1) (calls w1))
    | Raise error =>
        if existsb (isinstance error) ["AttributeError"; "KeyError"; "TypeError"]
        then (Return tt, w1)
        else (Raise error, w1)
    end
  ∧ match fst (Environment.__del__ L self w) with
    | Return _ => True
    | Raise error =>
        existsb (isinstance error) ["AttributeError"; "KeyError"; "TypeError"]
        = false
    end.
Proof.
  intros env destroyed w1. subst w1 destroyed env.
  unfold Environment.__del__, try_except, mbind, M_bind, native_raising,
    ENVIRONMENT_DATA_delitem.
  destruct (lib.DestroyEnvironment L _ _) as [[r|error] e']; simpl.
  - destruct (ENVIRONMENT_DATA w !! Environment._env self) eqn:Hd; simpl.
    + done.
    + by rewrite (delete_id _ _ Hd).
  - destruct (isinstance error "AttributeError" || (isinstance error "KeyError"
               || (isinstance error "TypeError" || false))) eqn:Hinst;
      simpl; done.
Qed.

(** X6: an environment cannot be given functions after it was destroyed:
    once the finaliser has run with the native call returning,
    [define_function] raises [KeyError] and registers nothing. *)
Theorem define_function_after_del {E} (L : lib.t E) self f (w : world E) r e' :
  lib.DestroyEnvironment L (Environment._env self) (engine w) = (Return r, e') →
  (Environment.__del__ L self;; Environment.define_function L self f) w
  = (Raise (KeyError (lib.cdata_repr L (Environment._env self))),
     run (Environment.__del__ L self) w)
  ∧ ENVIRONMENT_DATA (run (Environment.__del__ L self) w)
      !! Environment._env self = None.
Proof.
  intros Hdestroy.
  assert (Hdel : Environment.__del__ L self w
    = (Return tt,
       World e' (delete (Environment._env self) (ENVIRONMENT_DATA w)) (frame w)
             (cells w) (calls w ++ [DestroyEnvironment_ (Environment._env self)]))).
  { unfold Environment.__del__, try_except, mbind, M_bind, native_raising,
      ENVIRONMENT_DATA_delitem.
    rewrite Hdestroy. simpl.
    destruct (ENVIRONMENT_DATA w !! Environment._env self) eqn:Hd; simpl; [done |].
    by rewrite (delete_id _ _ Hd). }
  unfold run, mbind, M_bind. rewrite Hdel. simpl.
  split; [| apply lookup_delete_eq].
  unfold Environment.define_function, mbind, M_bind, ENVIRONMENT_DATA_getitem.
  simpl. by rewrite lookup_delete_eq.
Qed.

Lemma define_function_after_del_witness :
  fst ((Environment.__del__ Engine.lib {| Environment._env := 0%N |};;
        Environment.define_function Engine.lib {| Environment._env := 0%N |} greet)
         (run (started [fail]) boot))
  = Raise (KeyError "<cdata 'void *' 0>").
Proof.
  destruct (define_function_after_del Engine.lib {| Environment._env := 0%N |}
              greet (run (started [fail]) boot) 1
              (delete 0%N (engine (run (started [fail]) boot))))
    as [Hrun _].
  - vm_compute. reflexivity.
  - rewrite Hrun. reflexivity.
Defined.

(** ** The callback, whatever it is given *)

(** X7: the callback never stores [None].  Whenever it returns normally it
    has written its result cell, and the value in the cell is not [None]:
    it is what the user function returned, the symbol [nil], or the text of
    an exception. *)
Theorem python_function_never_stores_None
    {E} (L : lib.t E) env data_object (w : world E) :
  fst (python_function L env data_object w) = Return tt →
  ∃ v, v ≠ VNone
       ∧ cells (run (python_function L env data_object) w) !! data_object = Some v.
Proof.
  intros Hreturn. unfold run.
  destruct (first_argument_type (frame w)) as [[| | |]|] eqn:Htype;
    try (rewrite python_function_not_symbol in Hreturn
           by (rewrite Htype; discriminate);
         discriminate).
  apply first_argument_type_SYMBOL in Htype as (name & args & Hframe).
  rewrite (python_function_symbol L _ _ _ _ _ Hframe) in Hreturn |- *.
  destruct (call_user_function_contained L env (VSymbol name) args w)
    as [Hworld _].
  unfold mbind, M_bind in Hreturn |- *.
  destruct (call_user_function L env (VSymbol name) args w) as [[v|error] w'];
    simpl in Hworld; subst w'; [| discriminate].
  exists (if is_not_None v then v else VSymbol "nil").
  split; [by destruct v |]. simpl. apply lookup_insert_eq.
Qed.

Lemma python_function_never_stores_None_witness :
  let w := calling [VSymbol "nothing"] (run (started [nothing]) boot) in
  ∃ v, v ≠ VNone
       ∧ cells (run (python_function Engine.lib 0%N 7%N) w) !! 7%N = Some v.
Proof.
  intros w.
  apply (python_function_never_stores_None Engine.lib 0%N 7%N w).
  vm_compute. reflexivity.
Defined.

(** X9: the text of an exception is an ordinary result.  A function that
    raises an instance of [Exception] and a function that returns the string
    "<class name>: <message>" leave the same result; the engine cannot tell
    the one from the other. *)
Theorem python_function_error_in_band
    {E} (L : lib.t E) env data_object (w : world E)
    raising returning f g args args' error :
  registered w env raising f →
  registered w env returning g →
  __call__ f args = Raise error →
  isinstance error "Exception" = true →
  __call__ g args' = Return (VString (exn_class error +:+ ": " +:+ exn_str error)) →
  fst (python_function L env data_object (calling (VSymbol raising :: args) w))
  = fst (python_function L env data_object (calling (VSymbol returning :: args') w))
  ∧ cells (run (python_function L env data_object)
             (calling (VSymbol raising :: args) w))
    = cells (run (python_function L env data_object)
               (calling (VSymbol returning :: args') w)).
Proof.
  intros (d & Hd & Hf) (d' & Hd' & Hg) Hraise Hinst Hreturn.
  unfold run.
  rewrite (python_function_raises L env data_object
             (calling (VSymbol raising :: args) w) raising args d f error
             eq_refl Hd Hf Hraise), Hinst.
  rewrite (python_function_returns L env data_object
             (calling (VSymbol returning :: args') w) returning args' d' g _
             eq_refl Hd' Hg Hreturn).
  done.
Qed.

(** A function that returns the text [fail] would raise. *)
Lemma python_function_error_in_band_witness :
  let pretend := Callable "pretend" (λ _, Return (VString "ValueError: bad input")) in
  let w := run (started [fail; pretend]) boot in
  fst (python_function Engine.lib 0%N 7%N (calling [VSymbol "fail"] w))
  = fst (python_function Engine.lib 0%N 7%N (calling [VSymbol "pretend"; VInteger 3] w))
  ∧ cells (run (python_function Engine.lib 0%N 7%N) (calling [VSymbol "fail"] w))
    = cells (run (python_function Engine.lib 0%N 7%N)
               (calling [VSymbol "pretend"; VInteger 3] w)).
Proof.
  intros pretend w.
  apply (python_function_error_in_band Engine.lib 0%N 7%N w "fail" "pretend"
           fail pretend [] [VInteger 3]
           (Exn "ValueError" ["Exception"; "BaseException"] "bad input")).
  - eexists. split; vm_compute; reflexivity.
  - eexists. split; vm_compute; reflexivity.
  - reflexivity.
  - reflexivity.
  - reflexivity.
Defined.
